(** * analyze-engagement.py: platform classifier and score statistics

    A shallow embedding of [src/scripts/analyze-engagement.py].  The script
    loads one JSON export, splits its calibration entries by platform
    ([is_twitter_post]), prints descriptive statistics of the score fields
    ([analyze_distribution], [analyze_by_source]) and tallies the bucket
    labels of the session impressions ([main]).

    Conventions of the model:
    - a value produced by [json.load] is a [json] tree; a record (Python
      [dict]) is a [gmap string json];
    - a Python [str] is a [string], one [ascii] per code point, which covers
      the code points U+0000..U+00FF;
    - Python's unbounded [int] is [Z]; the scores of the export are integers,
      and JSON [true]/[false] behave as [1]/[0] in arithmetic, as [bool] is a
      subclass of [int];
    - a Python exception is a [Raise] result; what was printed before it is
      kept, as on standard output. *)

From stdpp Require Import gmap strings list sorting.
From Stdlib Require Import ZArith QArith Lia.

Set Warnings "-register-all".
#[local] Open Scope Z_scope.

(** ** Values read from the export *)

Inductive json : Type :=
  | JNull
  | JBool (b : bool)
  | JNum (z : Z)
  | JStr (s : string)
  | JArr (l : list json)
  | JObj (m : gmap string json).

(** ** Exceptions and results *)

Inductive exn : Type :=
  | AttributeError
  | TypeError
  | IndexError
  | ZeroDivisionError
  | ValueError
  | OverflowError.

Inductive result (A : Type) : Type :=
  | Ok (a : A)
  | Raise (e : exn).
Arguments Ok {A} a.
Arguments Raise {A} e.

#[global] Instance result_ret : MRet result := @Ok.
#[global] Instance result_bind : MBind result := λ A B f r,
  match r with
  | Ok a => f a
  | Raise e => Raise e
  end.

(** ** The [str] and [dict] methods the script calls *)

(** [d.get(key, default)]: the stored value when the key is present (also
    when that value is [None]), the default only when the key is absent. *)
Definition dict_get (d : gmap string json) (key : string) (dflt : json) : json :=
  default dflt (d !! key).

(** [key in d]. *)
Definition dict_contains (d : gmap string json) (key : string) : bool :=
  bool_decide (is_Some (d !! key)).

(** [c.isdigit()] for one code point below U+0100: the decimal digits and the
    superscript digits U+00B2, U+00B3 and U+00B9. *)
Definition char_isdigit (c : Ascii.ascii) : bool :=
  let n := Ascii.N_of_ascii c in
  ((48 <=? n) && (n <=? 57) || (n =? 178) || (n =? 179) || (n =? 185))%N.

Fixpoint all_chars (f : Ascii.ascii → bool) (s : string) : bool :=
  match s with
  | EmptyString => true
  | String c s' => f c && all_chars f s'
  end.

(** [s.isdigit()]: every character is a digit and there is at least one. *)
Definition isdigit (s : string) : bool :=
  match s with
  | EmptyString => false
  | String _ _ => all_chars char_isdigit s
  end.

(** [v.startswith(p)]: only [str] has the attribute. *)
Definition py_startswith (v : json) (p : string) : result bool :=
  match v with
  | JStr s => Ok (String.prefix p s)
  | _ => Raise AttributeError
  end.

(** [v.isdigit()]: only [str] has the attribute. *)
Definition py_isdigit (v : json) : result bool :=
  match v with
  | JStr s => Ok (isdigit s)
  | _ => Raise AttributeError
  end.

(** [len(v)] for the values of the export. *)
Definition py_len (v : json) : result Z :=
  match v with
  | JStr s => Ok (Z.of_nat (String.length s))
  | JArr l => Ok (Z.of_nat (length l))
  | JObj m => Ok (Z.of_nat (size m))
  | _ => Raise TypeError
  end.

(** ** Platform classifier (lines 16-27) *)

Definition is_twitter_post (post : gmap string json) : result bool :=
  let subreddit := dict_get post "subreddit" (JStr "") in
  let post_id := dict_get post "postId" (JStr "") in
  at_name ← py_startswith subreddit "@";
  if at_name : bool then Ok true
  else
    digits ← py_isdigit post_id;
    if digits : bool then
      n ← py_len post_id;
      if 15 <? n then Ok true else Ok false
    else Ok false.

(** The text of a field that is absent (read as the empty string) or holds a
    string; [None] for any other value. *)
Definition str_field (post : gmap string json) (key : string) : option string :=
  match post !! key with
  | None => Some EmptyString
  | Some (JStr s) => Some s
  | Some _ => None
  end.

(** ** Standard output *)

(** One constructor per [print] call.  A line without interpolated values is
    its text; a line that formats values carries them: [NoData label] is the
    notice of line 32, an empty line and then the label followed by
    [": No data"].  A Python [float] is carried as the exact rational it was
    rounded from. *)
Inductive line : Type :=
  | Text (s : string)
  | NoData (label : string)
  | TotalPosts (n : Z)
  | MinMax (min_val max_val : Z)
  | MeanMedian (mean median : Q)
  | Percentile (name : string) (v : Z)
  | BucketCount (name : string) (count : Z) (pct : Q)
  | HistBar (bucket bar_len count : Z)
  | Suggest (share threshold pctl : Z)
  | PairedSamples (k : Z)
  | MeanDiff (d : Q)
  | ApiHigher (over : Z) (pct : Q)
  | ApiLower (under : Z) (pct : Q)
  | Within (close : Z) (pct : Q)
  | ExportDate (v : json)
  | TotalSessions (k : Z)
  | TotalCalibration (k : Z)
  | PlatformCount (name : string) (k : Z)
  | Impressions (label : string) (total : Z)
  | BucketShare (bucket : string) (count : Z) (pct : Q).

(** A run prints lines and then returns or raises. *)
Record io (A : Type) : Type := IO { printed : list line; outcome : result A }.
Arguments IO {A} printed outcome.
Arguments printed {A} _.
Arguments outcome {A} _.

#[global] Instance io_ret : MRet io := λ A a, IO [] (Ok a).
#[global] Instance io_bind : MBind io := λ A B f m,
  match m with
  | IO out (Ok a) => let (out', r) := f a in IO (out ++ out') r
  | IO out (Raise e) => IO out (Raise e)
  end.

Definition print (l : line) : io () := IO [l] (Ok ()).
Definition eval {A} (r : result A) : io A := IO [] r.

Definition nl : string := String (Ascii.ascii_of_N 10) EmptyString.

Fixpoint repeat_str (s : string) (k : nat) : string :=
  match k with
  | O => EmptyString
  | S k' => s +:+ repeat_str s k'
  end.

(** ['='*60] *)
Definition rule : string := repeat_str "=" 60.

(** ** Arithmetic of the interpreter *)

(** A score in arithmetic and comparisons: an [int] or a [bool]; anything
    else makes [sorted], [sum] or [-] raise [TypeError]. *)
Definition as_number (v : json) : result Z :=
  match v with
  | JNum z => Ok z
  | JBool b => Ok (Z.b2z b)
  | _ => Raise TypeError
  end.

(** The least magnitude that no longer rounds to a finite double. *)
Definition dbl_limit : Z := 2 ^ 1024 - 2 ^ 970.

(** [a / b] on integers: a float, [OverflowError] when the quotient is too
    large for one. *)
Definition truediv (a b : Z) : result Q :=
  if b =? 0 then Raise ZeroDivisionError
  else if dbl_limit * Z.abs b <=? Z.abs a then Raise OverflowError
  else Ok (inject_Z a / inject_Z b)%Q.

(** Formatting an [int] with [.1f] converts it to a float first. *)
Definition to_float (z : Z) : result Q :=
  if dbl_limit <=? Z.abs z then Raise OverflowError else Ok (inject_Z z).

(** [l[i]]: a negative index counts from the end. *)
Definition getitem (l : list Z) (i : Z) : result Z :=
  let n := Z.of_nat (length l) in
  let j := if i <? 0 then i + n else i in
  if (0 <=? j) && (j <? n) then
    match l !! Z.to_nat j with
    | Some x => Ok x
    | None => Raise IndexError
    end
  else Raise IndexError.

Definition py_sum (l : list Z) : Z := foldl Z.add 0 l.

Definition py_min (l : list Z) : result Z :=
  match l with
  | [] => Raise ValueError
  | x :: l' => Ok (foldl Z.min x l')
  end.

Definition py_max (l : list Z) : result Z :=
  match l with
  | [] => Raise ValueError
  | x :: l' => Ok (foldl Z.max x l')
  end.

(** [sum(1 for s in l if P s)] *)
Definition count (P : Z → Prop) `{∀ s, Decision (P s)} (l : list Z) : Z :=
  Z.of_nat (length (filter P l)).

(** ** Distribution analyzer (lines 29-107) *)

Record summary : Type := Summary {
  s_n : Z;
  s_mean : Q;
  s_median : Z;
  s_p75 : Z;
  s_p90 : Z;
  s_p95 : Z
}.

(** The inner function [percentile] (lines 45-47), with the variables it
    closes over as arguments.  On a list length [n] and [p <= 100] the
    product is far below 2^53, where [int(n * p / 100)] is the floor of the
    exact quotient. *)
Definition percentile (scores : list Z) (n p : Z) : result Z :=
  let idx := n * p / 100 in
  getitem scores (Z.min idx (n - 1)).

Definition low_count (scores : list Z) : Z := count (λ s, s < 40) scores.
Definition medium_count (scores : list Z) : Z := count (λ s, 40 ≤ s ∧ s < 70) scores.
Definition high_count (scores : list Z) : Z := count (λ s, s >= 70) scores.

(** Lines 82-85: the decile buckets, a [defaultdict(int)]. *)
Definition histogram (scores : list Z) : gmap Z Z :=
  foldl (λ buckets s,
           let bucket := s / 10 * 10 in
           <[bucket := default 0 (buckets !! bucket) + 1]> buckets)
        ∅ scores.

(** Line 87 *)
Definition max_count (buckets : gmap Z Z) : Z :=
  match (map_to_list buckets).*2 with
  | [] => 1
  | c :: cs => foldl Z.max c cs
  end.

(** Lines 88-92; [range(0, 110, 10)] is [0, 10, ..., 100]. *)
Definition histogram_lines (buckets : gmap Z Z) : list line :=
  let max_count := max_count buckets in
  (λ k, let bucket := 10 * Z.of_nat k in
        let count := default 0 (buckets !! bucket) in
        let bar_len := if 0 <? max_count then 40 * count / max_count else 0 in
        HistBar bucket bar_len count) <$> seq 0 11.

Definition pct (count n : Z) : Q := (inject_Z (100 * count) / inject_Z n)%Q.

(** The local variables of lines 35-59. *)
Record locals : Type := Locals {
  v_scores : list Z;
  v_n : Z;
  v_mean : Q;
  v_median : Z;
  v_min : Z;
  v_max : Z;
  v_p10 : Z;
  v_p25 : Z;
  v_p50 : Z;
  v_p75 : Z;
  v_p90 : Z;
  v_p95 : Z;
  v_low : Z;
  v_medium : Z;
  v_high : Z
}.

(** Lines 35-59, which print nothing.  [sorted] and [sum] raise [TypeError]
    on a score that is not a number. *)
Definition distribution_stats (scores : list json) : result locals :=
  nums ← mapM as_number scores;
  let scores := merge_sort Z.le nums in
  let n := Z.of_nat (length scores) in
  mean ← truediv (py_sum scores) n;
  median ← getitem scores (n / 2);
  min_val ← py_min scores;
  max_val ← py_max scores;
  p10 ← percentile scores n 10;
  p25 ← percentile scores n 25;
  p50 ← percentile scores n 50;
  p75 ← percentile scores n 75;
  p90 ← percentile scores n 90;
  p95 ← percentile scores n 95;
  let low := low_count scores in
  let medium := medium_count scores in
  let high := high_count scores in
  Ok (Locals scores n mean median min_val max_val
             p10 p25 p50 p75 p90 p95 low medium high).

(** Lines 61-107 *)
Definition report_distribution (label : string) (v : locals) : io (option summary) :=
  print (Text (nl +:+ rule));;
  print (Text label);;
  print (Text rule);;
  print (TotalPosts (v_n v));;
  print (Text (nl +:+ "Basic Stats:"));;
  print (MinMax (v_min v) (v_max v));;
  median_f ← eval (to_float (v_median v));
  print (MeanMedian (v_mean v) median_f);;
  print (Text (nl +:+ "Percentiles:"));;
  print (Percentile "10th" (v_p10 v));;
  print (Percentile "25th" (v_p25 v));;
  print (Percentile "50th (median)" (v_p50 v));;
  print (Percentile "75th" (v_p75 v));;
  print (Percentile "90th" (v_p90 v));;
  print (Percentile "95th" (v_p95 v));;
  print (Text (nl +:+ "Current Bucket Distribution (low<40, med 40-69, high>=70):"));;
  print (BucketCount "Low" (v_low v) (pct (v_low v) (v_n v)));;
  print (BucketCount "Medium" (v_medium v) (pct (v_medium v) (v_n v)));;
  print (BucketCount "High" (v_high v) (pct (v_high v) (v_n v)));;
  print (Text (nl +:+ "Score Histogram:"));;
  IO (histogram_lines (histogram (v_scores v))) (Ok ());;
  print (Text (nl +:+ "Suggested Thresholds (based on percentiles):"));;
  print (Suggest 33 (v_p75 v) 75);;
  print (Suggest 20 (v_p90 v) 80);;
  print (Suggest 10 (v_p90 v) 90);;
  mret (Some (Summary (v_n v) (v_mean v) (v_median v) (v_p75 v) (v_p90 v) (v_p95 v))).

Definition analyze_distribution (scores : list json) (label : string)
  : io (option summary) :=
  match scores with
  | [] =>
    print (NoData label);;
    mret None
  | _ :: _ =>
    v ← eval (distribution_stats scores);
    report_distribution label v
  end.

(** ** Comparator and per-source analysis (lines 109-140) *)

(** [v is not None] *)
Definition is_not_none (v : json) : bool :=
  match v with
  | JNull => false
  | _ => true
  end.

(** The value under ["apiScore"] when the key is present and the value is
    not [None]. *)
Definition api_score (p : gmap string json) : option json :=
  match p !! "apiScore" with
  | Some v => if is_not_none v then Some v else None
  | None => None
  end.

(** Line 111 *)
Definition heuristic_scores (cal : list (gmap string json)) : list json :=
  omap (λ p, p !! "heuristicScore") cal.

(** Line 112 *)
Definition api_scores (cal : list (gmap string json)) : list json :=
  omap api_score cal.

(** Lines 118-120 *)
Definition paired (cal : list (gmap string json)) : list (json * json) :=
  omap (λ p, match p !! "heuristicScore", api_score p with
             | Some heur, Some api => Some (heur, api)
             | _, _ => None
             end) cal.

(** [a - b] *)
Definition py_sub (a b : json) : result Z :=
  x ← as_number a;
  y ← as_number b;
  Ok (x - y).

(** Lines 131-133 *)
Definition over (diffs : list Z) : Z := count (λ d, d > 10) diffs.
Definition under (diffs : list Z) : Z := count (λ d, d < -10) diffs.
Definition close (diffs : list Z) : Z :=
  Z.of_nat (length diffs) - over diffs - under diffs.

(** Line 128 *)
Definition diffs_of (pairs : list (json * json)) : result (list Z) :=
  mapM (λ '(heur, api), py_sub api heur) pairs.

Definition analyze_by_source (cal : list (gmap string json)) (label_prefix : string)
  : io (option summary * option summary) :=
  h_stats ← analyze_distribution (heuristic_scores cal)
              (label_prefix +:+ " - Heuristic Scores");
  a_stats ← analyze_distribution (api_scores cal)
              (label_prefix +:+ " - API Scores");
  let pairs := paired cal in
  match pairs with
  | [] => mret ()
  | _ :: _ =>
    print (Text (nl +:+ rule));;
    print (Text (label_prefix +:+ " - Heuristic vs API Comparison"));;
    print (Text rule);;
    print (PairedSamples (Z.of_nat (length pairs)));;
    diffs ← eval (diffs_of pairs);
    let k := Z.of_nat (length diffs) in
    mean_diff ← eval (truediv (py_sum diffs) k);
    print (MeanDiff mean_diff);;
    print (ApiHigher (over diffs) (pct (over diffs) k));;
    print (ApiLower (under diffs) (pct (under diffs) k));;
    print (Within (close diffs) (pct (close diffs) k))
  end;;
  mret (h_stats, a_stats).

(** ** Report driver (lines 157-204) *)

(** The export document after [load_data]: its containers follow the schema
    of the export, the fields of a record are arbitrary JSON values.  A field
    is [None] when the key is absent. *)
Record session : Type := Session {
  posts : option (list (gmap string json))
}.

Record document : Type := Document {
  exportDate : option json;
  sessions : option (list session);
  calibration : option (list (gmap string json))
}.

(** [[p for p in l if f(p)]], where [f] may raise. *)
Fixpoint select {A} (f : A → result bool) (l : list A) : result (list A) :=
  match l with
  | [] => Ok []
  | x :: l' =>
    keep ← f x;
    rest ← select f l';
    Ok (if keep : bool then x :: rest else rest)
  end.

Definition is_reddit_post (p : gmap string json) : result bool :=
  b ← is_twitter_post p;
  Ok (negb b).

(** The key of line 199; a list or a dict is not hashable. *)
Definition bucket_key (p : gmap string json) : result json :=
  match dict_get p "bucket" (JStr "unknown") with
  | JArr _ | JObj _ => Raise TypeError
  | k => Ok k
  end.

(** Lines 197-199.  Only the entries under string keys are kept: the loop of
    line 202 reads four string keys and a string equals no other value. *)
Fixpoint tally (ps : list (gmap string json)) (buckets : gmap string Z)
  : result (gmap string Z) :=
  match ps with
  | [] => Ok buckets
  | p :: ps' =>
    k ← bucket_key p;
    tally ps' (match k with
               | JStr s => <[s := default 0 (buckets !! s) + 1]> buckets
               | _ => buckets
               end)
  end.

Definition bucket_labels : list string := ["low"; "medium"; "high"; "unknown"].

(** Lines 202-204 *)
Definition share_lines (buckets : gmap string Z) (total : Z) : list line :=
  omap (λ bucket, c ← buckets !! bucket; Some (BucketShare bucket c (pct c total)))
       bucket_labels.

(** One round of the loop of line 194. *)
Definition session_report (label : string) (ps : list (gmap string json)) : io () :=
  match ps with
  | [] => mret ()
  | _ :: _ =>
    buckets ← eval (tally ps ∅);
    let total := Z.of_nat (length ps) in
    print (Impressions label total);;
    IO (share_lines buckets total) (Ok ())
  end.

(** Lines 159-178: the header and the calibration entries by platform. *)
Definition main_calibration (data : document) : io () :=
  print (ExportDate (default (JStr "unknown") (exportDate data)));;
  print (TotalSessions (Z.of_nat (length (default [] (sessions data)))));;
  print (TotalCalibration (Z.of_nat (length (default [] (calibration data)))));;
  let cal := default [] (calibration data) in
  twitter_cal ← eval (select is_twitter_post cal);
  reddit_cal ← eval (select is_reddit_post cal);
  print (Text (nl +:+ "Platform breakdown:"));;
  print (PlatformCount "Twitter" (Z.of_nat (length twitter_cal)));;
  print (PlatformCount "Reddit" (Z.of_nat (length reddit_cal)));;
  match reddit_cal with
  | [] => mret ()
  | _ :: _ => analyze_by_source reddit_cal "REDDIT";; mret ()
  end;;
  match twitter_cal with
  | [] => mret ()
  | _ :: _ => analyze_by_source twitter_cal "TWITTER";; mret ()
  end.

(** Lines 181-184 *)
Definition all_posts (data : document) : list (gmap string json) :=
  concat ((λ s, default [] (posts s)) <$> default [] (sessions data)).

(** Lines 186-204: the bucket labels of the session impressions. *)
Definition main_sessions (data : document) : io () :=
  match all_posts data with
  | [] => mret ()
  | _ :: _ =>
    twitter_posts ← eval (select is_twitter_post (all_posts data));
    reddit_posts ← eval (select is_reddit_post (all_posts data));
    print (Text (nl +:+ rule));;
    print (Text "SESSION DATA - Bucket Distribution");;
    print (Text rule);;
    session_report "Reddit" reddit_posts;;
    session_report "Twitter" twitter_posts
  end.

(** [main] from line 157 on, once the export is loaded. *)
Definition main (data : document) : io () :=
  main_calibration data;;
  main_sessions data.

(** ** Records and conditions used in the statements *)



Definition null_subreddit : gmap string json :=
  <["subreddit" := JNull]> ∅.


(** The percentile that the analyzer holds for rank [p], one of lines
    49-54. *)
Definition reported_percentile (v : locals) (p : Z) : option Z :=
  if p =? 10 then Some (v_p10 v)
  else if p =? 25 then Some (v_p25 v)
  else if p =? 50 then Some (v_p50 v)
  else if p =? 75 then Some (v_p75 v)
  else if p =? 90 then Some (v_p90 v)
  else if p =? 95 then Some (v_p95 v)
  else None.

Definition percentile_ranks : list Z := [10; 25; 50; 75; 90; 95].

(** The numbers fit a double, so that their mean and median can be printed. *)
Definition in_float_range (nums : list Z) : Prop :=
  Forall (λ x, Z.abs x < dbl_limit) nums.

Definition ten_to_forty : list json := [JNum 10; JNum 20; JNum 30; JNum 40].


(** [{heuristicScore: 30, apiScore: 45, subreddit: "@bob", postId: ""}] *)
Definition bob : gmap string json :=
  <["heuristicScore" := JNum 30]>
    (<["apiScore" := JNum 45]>
       (<["subreddit" := JStr "@bob"]> (<["postId" := JStr ""]> ∅))).

(** An export whose calibration is the single record [bob]. *)
Definition bob_export : document :=
  {| exportDate := None; sessions := None; calibration := Some [bob] |}.

(** The lines that [main] prints before any analysis. *)
Definition header_lines (data : document) (twitter reddit : Z) : list line :=
  [ ExportDate (default (JStr "unknown") (exportDate data));
    TotalSessions (Z.of_nat (length (default [] (sessions data))));
    TotalCalibration (Z.of_nat (length (default [] (calibration data))));
    Text (nl +:+ "Platform breakdown:");
    PlatformCount "Twitter" twitter;
    PlatformCount "Reddit" reddit ].


(** * Properties *)

(** ** Platform classifier *)

Section classifier.
Implicit Types (post : gmap string json) (sub pid : string).

(** On a record whose two fields are absent or strings the classifier is
    the disjunction of its two rules. *)
Lemma is_twitter_post_strings post sub pid :
  str_field post "subreddit" = Some sub →
  str_field post "postId" = Some pid →
  is_twitter_post post
  = Ok (String.prefix "@" sub
        || isdigit pid && (15 <? Z.of_nat (String.length pid))).
Proof.
  unfold str_field, is_twitter_post, dict_get.
  intros Hsub Hpid.
  destruct (post !! "subreddit") as [[]|]; simplify_eq;
    destruct (post !! "postId") as [[]|]; simplify_eq;
    cbn [default from_option id py_startswith py_isdigit py_len mbind result_bind];
    destruct (String.prefix "@" _); cbn [orb andb]; try done;
    destruct (isdigit _); cbn [orb andb]; try done;
    by destruct (15 <? _).
Qed.

End classifier.




(** C2, as stated, fails: a record whose subreddit is [null] makes the
    classifier raise [AttributeError]: [None] has no [startswith]. *)
Lemma null_subreddit_raises :
  ¬ (∀ post, ∃ b, is_twitter_post post = Ok b).
Proof.
  intros H. destruct (H null_subreddit) as [b Hb]. by vm_compute in Hb.
Qed.

(** C2, amended: on every record whose subreddit and postId are each absent
    or a string the classifier returns a boolean, and an absent field counts
    as the empty string: storing the text read for each field gives the same
    result. *)
Theorem is_twitter_post_total_on_strings (post : gmap string json) (sub pid : string) :
  str_field post "subreddit" = Some sub →
  str_field post "postId" = Some pid →
  (∃ b, is_twitter_post post = Ok b)
  ∧ (post !! "subreddit" = None → sub = "")
  ∧ (post !! "postId" = None → pid = "")
  ∧ is_twitter_post post
    = is_twitter_post (<["subreddit" := JStr sub]> (<["postId" := JStr pid]> post)).
Proof.
  intros Hsub Hpid. split_and!.
  - eexists. by apply is_twitter_post_strings.
  - unfold str_field in Hsub. intros E. rewrite E in Hsub. by simplify_eq.
  - unfold str_field in Hpid. intros E. rewrite E in Hpid. by simplify_eq.
  - rewrite (is_twitter_post_strings _ _ _ Hsub Hpid).
    symmetry. apply is_twitter_post_strings.
    + unfold str_field. by rewrite lookup_insert_eq.
    + unfold str_field. rewrite lookup_insert_ne by done.
      by rewrite lookup_insert_eq.
Qed.

Lemma is_twitter_post_total_on_strings_witness :
  ∃ b, is_twitter_post (∅ : gmap string json) = Ok b.
Proof.
  apply (is_twitter_post_total_on_strings ∅ "" ""); reflexivity.
Defined.

(** ** Lists, indexing and sums *)

Section list_facts.
Implicit Types (l : list Z) (i j p q x y : Z).


Lemma getitem_in_range l i :
  0 ≤ i < Z.of_nat (length l) →
  ∃ x, getitem l i = Ok x ∧ l !! Z.to_nat i = Some x.
Proof.
  intros Hi. unfold getitem.
  destruct (Z.ltb_spec i 0); [lia|].
  destruct (Z.leb_spec 0 i); [|lia].
  destruct (Z.ltb_spec i (Z.of_nat (length l))); [|lia]. simpl.
  destruct (lookup_lt_is_Some_2 l (Z.to_nat i)) as [x Hx]; [lia|].
  rewrite Hx. eauto.
Qed.

Lemma getitem_lookup l i x :
  0 ≤ i → getitem l i = Ok x → l !! Z.to_nat i = Some x.
Proof.
  intros Hi. unfold getitem.
  destruct (Z.ltb_spec i 0); [lia|].
  destruct (_ && _); [|done].
  destruct (l !! Z.to_nat i); naive_solver.
Qed.

(** The index that [percentile] reads lies inside a non-empty list. *)
Lemma percentile_index_range (n p : Z) :
  0 < n → 0 ≤ p → 0 ≤ Z.min (n * p / 100) (n - 1) < n.
Proof.
  intros Hn Hp. assert (0 ≤ n * p / 100) by (apply Z.div_pos; nia). lia.
Qed.

Lemma percentile_in_range l p :
  l ≠ [] → 0 ≤ p →
  ∃ x, percentile l (Z.of_nat (length l)) p = Ok x
       ∧ l !! Z.to_nat (Z.min (Z.of_nat (length l) * p / 100)
                              (Z.of_nat (length l) - 1)) = Some x.
Proof.
  intros Hl Hp. unfold percentile. apply getitem_in_range.
  apply percentile_index_range; [|done].
  destruct l; simpl in *; [done|lia].
Qed.

Lemma percentile_lookup l p x :
  l ≠ [] → 0 ≤ p →
  percentile l (Z.of_nat (length l)) p = Ok x →
  l !! Z.to_nat (Z.min (Z.of_nat (length l) * p / 100)
                       (Z.of_nat (length l) - 1)) = Some x.
Proof.
  intros Hl Hp Hx.
  destruct (percentile_in_range l p Hl Hp) as (x' & Hx' & Hlook).
  congruence.
Qed.


Lemma py_sum_bound l (B a : Z) :
  Forall (λ x, Z.abs x < B) l →
  Z.abs (foldl Z.add a l) ≤ Z.abs a + Z.of_nat (length l) * (B - 1).
Proof.
  intros Hl. revert a. induction Hl as [|x l Hx _ IH]; intros a; simpl.
  - lia.
  - specialize (IH (a + x)). lia.
Qed.

Lemma dbl_limit_pos : 0 < dbl_limit.
Proof. by vm_compute. Qed.

(** The mean of numbers that fit a double fits a double. *)
Lemma truediv_mean l :
  l ≠ [] → Forall (λ x, Z.abs x < dbl_limit) l →
  ∃ m, truediv (py_sum l) (Z.of_nat (length l)) = Ok m.
Proof.
  intros Hl Hall. unfold truediv.
  assert (0 < Z.of_nat (length l)) by (destruct l; simpl in *; [done|lia]).
  destruct (Z.eqb_spec (Z.of_nat (length l)) 0); [lia|].
  pose proof (py_sum_bound l dbl_limit 0 Hall) as Hb. fold (py_sum l) in Hb.
  pose proof dbl_limit_pos.
  destruct (Z.leb_spec (dbl_limit * Z.abs (Z.of_nat (length l))) (Z.abs (py_sum l)));
    [nia|eauto].
Qed.

Lemma to_float_in_range x :
  Z.abs x < dbl_limit → to_float x = Ok (inject_Z x).
Proof. intros Hx. unfold to_float. by destruct (Z.leb_spec dbl_limit (Z.abs x)); [lia|]. Qed.
End list_facts.

(** ** The analyzer's run *)

(** Splits the first [≫=] of a hypothesis on [result]s. *)
Ltac bind_inv H :=
  match type of H with
  | (?r ≫= _) = Ok _ =>
    let E := fresh "E" in
    destruct r eqn:E; [cbn [mbind result_bind] in H | discriminate H]
  end.

Section analyzer_run.
Implicit Types (scores : list json) (nums : list Z) (v : locals).

Lemma mapM_as_number_length scores nums :
  mapM as_number scores = Ok nums → length nums = length scores.
Proof.
  revert nums. induction scores as [|s scores IH]; intros nums H;
    cbn [mapM] in H.
  - by injection H as <-.
  - bind_inv H. bind_inv H. injection H as <-. simpl. f_equal. by apply IH.
Qed.

Lemma mapM_as_number_JNum nums : mapM as_number (JNum <$> nums) = Ok nums.
Proof.
  induction nums as [|x nums IH]; [done|].
  rewrite fmap_cons. cbn [mapM as_number mbind result_bind]. by rewrite IH.
Qed.

Lemma merge_sort_nonempty nums : nums ≠ [] → merge_sort Z.le nums ≠ [].
Proof.
  intros Hn Hs. apply Hn, Permutation_nil_r.
  rewrite <-Hs. by rewrite merge_sort_Permutation.
Qed.

Lemma merge_sort_length nums : length (merge_sort Z.le nums) = length nums.
Proof. by rewrite merge_sort_Permutation. Qed.

(** What a successful run of lines 35-59 has computed. *)
Lemma distribution_stats_inv scores v :
  distribution_stats scores = Ok v →
  ∃ nums,
    mapM as_number scores = Ok nums
    ∧ v_scores v = merge_sort Z.le nums
    ∧ v_n v = Z.of_nat (length nums)
    ∧ truediv (py_sum (v_scores v)) (v_n v) = Ok (v_mean v)
    ∧ getitem (v_scores v) (v_n v / 2) = Ok (v_median v)
    ∧ py_min (v_scores v) = Ok (v_min v)
    ∧ py_max (v_scores v) = Ok (v_max v)
    ∧ percentile (v_scores v) (v_n v) 10 = Ok (v_p10 v)
    ∧ percentile (v_scores v) (v_n v) 25 = Ok (v_p25 v)
    ∧ percentile (v_scores v) (v_n v) 50 = Ok (v_p50 v)
    ∧ percentile (v_scores v) (v_n v) 75 = Ok (v_p75 v)
    ∧ percentile (v_scores v) (v_n v) 90 = Ok (v_p90 v)
    ∧ percentile (v_scores v) (v_n v) 95 = Ok (v_p95 v)
    ∧ v_low v = low_count (v_scores v)
    ∧ v_medium v = medium_count (v_scores v)
    ∧ v_high v = high_count (v_scores v).
Proof.
  unfold distribution_stats. intros H.
  bind_inv H. rename a into nums. exists nums.
  rewrite <-(merge_sort_length nums).
  do 10 bind_inv H. simplify_eq/=. by split_and!.
Qed.

(** Lines 35-59 succeed on a non-empty list of numbers that fit a double. *)
Lemma distribution_stats_total scores nums :
  mapM as_number scores = Ok nums → nums ≠ [] →
  Forall (λ x, Z.abs x < dbl_limit) nums →
  ∃ v, distribution_stats scores = Ok v.
Proof.
  intros Hnums Hne Hfit. unfold distribution_stats.
  rewrite Hnums. cbn [mbind result_bind].
  set (s := merge_sort Z.le nums).
  assert (Hs : s ≠ []) by by apply merge_sort_nonempty.
  assert (Hsfit : Forall (λ x, Z.abs x < dbl_limit) s).
  { unfold s. by rewrite merge_sort_Permutation. }
  destruct (truediv_mean s Hs Hsfit) as [m ->]. cbn [mbind result_bind].
  destruct (getitem_in_range s (Z.of_nat (length s) / 2)) as (md & -> & _).
  { destruct s; simpl in *; [done|].
    split; [apply Z.div_pos; lia | apply Z.div_lt_upper_bound; lia]. }
  cbn [mbind result_bind].
  destruct s as [|x s'] eqn:Es; [done|]. rewrite <-Es in *.
  assert (∃ a, py_min s = Ok a) as [a ->] by (rewrite Es; simpl; eauto).
  assert (∃ a, py_max s = Ok a) as [b ->] by (rewrite Es; simpl; eauto).
  cbn [mbind result_bind].
  destruct (percentile_in_range s 10) as (? & -> & _); [done|lia|].
  destruct (percentile_in_range s 25) as (? & -> & _); [done|lia|].
  destruct (percentile_in_range s 50) as (? & -> & _); [done|lia|].
  destruct (percentile_in_range s 75) as (? & -> & _); [done|lia|].
  destruct (percentile_in_range s 90) as (? & -> & _); [done|lia|].
  destruct (percentile_in_range s 95) as (? & -> & _); [done|lia|].
  cbn [mbind result_bind]. eauto.
Qed.

(** A report that ends normally has printed the six percentiles and the
    three bucket counts and returns the summary of the locals. *)
Lemma report_distribution_Ok label v out r :
  report_distribution label v = IO out (Ok r) →
  r = Some (Summary (v_n v) (v_mean v) (v_median v) (v_p75 v) (v_p90 v) (v_p95 v))
  ∧ Percentile "10th" (v_p10 v) ∈ out
  ∧ Percentile "25th" (v_p25 v) ∈ out
  ∧ Percentile "50th (median)" (v_p50 v) ∈ out
  ∧ Percentile "75th" (v_p75 v) ∈ out
  ∧ Percentile "90th" (v_p90 v) ∈ out
  ∧ Percentile "95th" (v_p95 v) ∈ out
  ∧ BucketCount "Low" (v_low v) (pct (v_low v) (v_n v)) ∈ out
  ∧ BucketCount "Medium" (v_medium v) (pct (v_medium v) (v_n v)) ∈ out
  ∧ BucketCount "High" (v_high v) (pct (v_high v) (v_n v)) ∈ out
  ∧ TotalPosts (v_n v) ∈ out.
Proof.
  unfold report_distribution, print, eval.
  destruct (to_float (v_median v)) as [mf|e];
    cbn [mbind io_bind mret io_ret app]; intros H; simplify_eq.
  split_and!; [done|..];
    rewrite !elem_of_cons; auto 30.
Qed.

Lemma report_distribution_runs label v :
  Z.abs (v_median v) < dbl_limit →
  ∃ out, report_distribution label v
         = IO out (Ok (Some (Summary (v_n v) (v_mean v) (v_median v)
                                     (v_p75 v) (v_p90 v) (v_p95 v)))).
Proof.
  intros Hm. unfold report_distribution, print, eval.
  rewrite (to_float_in_range _ Hm).
  cbn [mbind io_bind mret io_ret app]. eauto.
Qed.

(** The analyzer returns a summary exactly when lines 35-59 succeed and
    the median can be formatted. *)
Lemma analyze_distribution_Some scores label out sm :
  analyze_distribution scores label = IO out (Ok (Some sm)) →
  ∃ v, distribution_stats scores = Ok v
       ∧ report_distribution label v = IO out (Ok (Some sm)).
Proof.
  unfold analyze_distribution, print, eval. destruct scores as [|s scores].
  - cbn [mbind io_bind mret io_ret app]. intros; simplify_eq.
  - destruct (distribution_stats (s :: scores)) as [v|e];
      cbn [mbind io_bind]; [|intros; simplify_eq].
    destruct (report_distribution label v) as [out' r] eqn:Er.
    intros; simplify_eq/=. eauto.
Qed.

Lemma analyze_distribution_total scores label nums :
  mapM as_number scores = Ok nums → nums ≠ [] →
  Forall (λ x, Z.abs x < dbl_limit) nums →
  ∃ out v, distribution_stats scores = Ok v
           ∧ analyze_distribution scores label
             = IO out (Ok (Some (Summary (v_n v) (v_mean v) (v_median v)
                                         (v_p75 v) (v_p90 v) (v_p95 v)))).
Proof.
  intros Hnums Hne Hfit.
  destruct (distribution_stats_total _ _ Hnums Hne Hfit) as [v Hv].
  destruct (distribution_stats_inv _ _ Hv) as (nums' & Hn' & Hs & Hlen & _ & Hmed & _).
  assert (nums' = nums) as -> by congruence.
  assert (Hm : Z.abs (v_median v) < dbl_limit).
  { apply getitem_lookup in Hmed.
    - apply list_elem_of_lookup_2 in Hmed. rewrite Hs in Hmed.
      rewrite merge_sort_Permutation in Hmed.
      rewrite Forall_forall in Hfit. by apply Hfit.
    - apply Z.div_pos; lia. }
  destruct (report_distribution_runs label v Hm) as [out Hout].
  exists out, v. split; [done|].
  unfold analyze_distribution. destruct scores as [|s scores].
  { simpl in Hnums. by simplify_eq. }
  rewrite Hv. unfold eval. cbn [mbind io_bind]. by rewrite Hout.
Qed.
End analyzer_run.

(** ** Distribution analyzer *)

Lemma sorted_is_merge_sort (sorted nums : list Z) :
  Sorted Z.le sorted → sorted ≡ₚ nums → merge_sort Z.le nums = sorted.
Proof.
  intros Hs Hp. apply (Sorted_unique Z.le).
  - apply (Sorted_merge_sort Z.le).
  - done.
  - by rewrite merge_sort_Permutation.
Qed.


(** C3: for a non-empty list of numeric scores, the median that the analyzer
    returns is the element at index [n // 2] of the ascending arrangement of
    the scores; the analyzer does return one when the scores fit a double;
    for [10, 20, 30, 40] it is 30. *)
Theorem median_is_upper_middle (scores : list json) (label : string) (nums : list Z) :
  mapM as_number scores = Ok nums →
  nums ≠ [] →
  (in_float_range nums →
     ∃ out sm, analyze_distribution scores label = IO out (Ok (Some sm)))
  ∧ (∀ out sm sorted,
       analyze_distribution scores label = IO out (Ok (Some sm)) →
       Sorted Z.le sorted → sorted ≡ₚ nums →
       sorted !! Z.to_nat (Z.of_nat (length nums) / 2) = Some (s_median sm))
  ∧ outcome (analyze_distribution ten_to_forty label)
    = Ok (Some (Summary 4 (100 # 4) 30 40 40 40)).
Proof.
  intros Hnums Hne. split_and!.
  - intros Hfit.
    destruct (analyze_distribution_total scores label nums) as (out & v & _ & H);
      eauto.
  - intros out sm sorted Hrun Hs Hp.
    apply analyze_distribution_Some in Hrun as (v & Hv & Hrep).
    apply report_distribution_Ok in Hrep as [Hsm _]. simplify_eq/=.
    apply distribution_stats_inv in Hv
      as (nums' & Hn' & Hsc & Hlen & _ & Hmed & _).
    assert (nums' = nums) as -> by congruence.
    rewrite Hlen in Hmed. apply getitem_lookup in Hmed; [|apply Z.div_pos; lia].
    by rewrite Hsc, (sorted_is_merge_sort sorted nums) in Hmed.
  - by vm_compute.
Qed.

Lemma median_is_upper_middle_witness :
  [10; 20; 30; 40] !! Z.to_nat (Z.of_nat (length [40; 10; 30; 20]) / 2) = Some 30.
Proof.
  destruct (median_is_upper_middle [JNum 40; JNum 10; JNum 30; JNum 20] "X"
              [40; 10; 30; 20] eq_refl ltac:(done)) as (_ & H & _).
  apply (H (printed (analyze_distribution [JNum 40; JNum 10; JNum 30; JNum 20] "X"))
           (Summary 4 (100 # 4) 30 40 40 40)).
  - by vm_compute.
  - repeat constructor; lia.
  - by apply (bool_decide_unpack _).
Defined.

(** C4: for a non-empty list of numeric scores and every rank [p] among 10,
    25, 50, 75, 90 and 95, the percentile that the analyzer computes is the
    value of the ascending arrangement at index [floor(n * p / 100)], capped
    at [n - 1]; the six values are the ones printed and, for 75, 90 and 95,
    returned. *)
Theorem percentile_is_nearest_rank (scores : list json) (nums : list Z) :
  mapM as_number scores = Ok nums →
  nums ≠ [] →
  (in_float_range nums → ∃ v, distribution_stats scores = Ok v)
  ∧ (∀ v sorted p,
       distribution_stats scores = Ok v →
       Sorted Z.le sorted → sorted ≡ₚ nums →
       p ∈ percentile_ranks →
       let n := Z.of_nat (length nums) in
       percentile sorted n p = Ok (default 0 (reported_percentile v p))
       ∧ reported_percentile v p
         = sorted !! Z.to_nat (Z.min (n * p / 100) (n - 1)))
  ∧ (∀ label out sm v,
       distribution_stats scores = Ok v →
       analyze_distribution scores label = IO out (Ok (Some sm)) →
       Percentile "10th" (v_p10 v) ∈ out
       ∧ Percentile "25th" (v_p25 v) ∈ out
       ∧ Percentile "50th (median)" (v_p50 v) ∈ out
       ∧ Percentile "75th" (v_p75 v) ∈ out
       ∧ Percentile "90th" (v_p90 v) ∈ out
       ∧ Percentile "95th" (v_p95 v) ∈ out
       ∧ s_p75 sm = v_p75 v ∧ s_p90 sm = v_p90 v ∧ s_p95 sm = v_p95 v).
Proof.
  intros Hnums Hne. split_and!.
  - intros Hfit. by eapply distribution_stats_total.
  - intros v sorted p Hv Hs Hp Hin n.
    apply distribution_stats_inv in Hv
      as (nums' & Hn' & Hsc & Hlen & _ & _ & _ & _ & H10 & H25 & H50 & H75 & H90 & H95 & _).
    assert (nums' = nums) as -> by congruence.
    assert (Hne' : sorted ≠ []).
    { intros ->. by apply Permutation_nil_l in Hp. }
    assert (Hl : length nums = length sorted) by (by rewrite Hp).
    subst n. rewrite Hl.
    rewrite Hsc, (sorted_is_merge_sort sorted nums Hs Hp), Hlen, Hl
      in H10, H25, H50, H75, H90, H95.
    unfold percentile_ranks in Hin. set_unfold in Hin.
    destruct Hin as [->|[->|[->|[->|[->|[->|[]]]]]]];
      cbn [reported_percentile Z.eqb Pos.eqb default from_option id];
      (split; [done|]); symmetry; by apply percentile_lookup.
  - intros label out sm v Hv Hrun.
    apply analyze_distribution_Some in Hrun as (v' & Hv' & Hrep).
    assert (v' = v) as -> by congruence.
    apply report_distribution_Ok in Hrep
      as (Hsm & ? & ? & ? & ? & ? & ? & _). by simplify_eq/=.
Qed.

Lemma percentile_is_nearest_rank_witness :
  ∃ v, distribution_stats ten_to_forty = Ok v.
Proof.
  apply (percentile_is_nearest_rank ten_to_forty [10; 20; 30; 40]).
  - reflexivity.
  - discriminate.
  - unfold in_float_range. repeat constructor.
Defined.



(** C10: for a non-empty list of numeric scores the median of the analyzer
    equals its 50th percentile: the returned median is the value printed on
    the line of the 50th percentile. *)
Theorem median_equals_p50 (scores : list json) (label : string) (nums : list Z) :
  mapM as_number scores = Ok nums →
  nums ≠ [] →
  (in_float_range nums →
     ∃ out sm, analyze_distribution scores label = IO out (Ok (Some sm)))
  ∧ (∀ v, distribution_stats scores = Ok v → v_median v = v_p50 v)
  ∧ (∀ out sm, analyze_distribution scores label = IO out (Ok (Some sm)) →
       Percentile "50th (median)" (s_median sm) ∈ out).
Proof.
  intros Hnums Hne.
  assert (Hmed : ∀ v, distribution_stats scores = Ok v → v_median v = v_p50 v).
  { intros v Hv.
    apply distribution_stats_inv in Hv
      as (nums' & Hn' & Hsc & Hlen & _ & Hmed & _ & _ & _ & _ & H50 & _).
    assert (nums' = nums) as -> by congruence.
    unfold percentile in H50.
    assert (0 < v_n v) by (rewrite Hlen; destruct nums; simpl; [done|lia]).
    replace (Z.min (v_n v * 50 / 100) (v_n v - 1)) with (v_n v / 2) in H50.
    - congruence.
    - replace (v_n v * 50 / 100) with (v_n v / 2).
      + assert (v_n v / 2 < v_n v) by (apply Z.div_lt_upper_bound; lia). lia.
      + replace 100 with (50 * 2) by done.
        rewrite <-Z.div_div by lia. by rewrite Z.div_mul. }
  split_and!; [|done|].
  - intros Hfit.
    destruct (analyze_distribution_total scores label nums) as (out & v & _ & H);
      eauto.
  - intros out sm Hrun.
    apply analyze_distribution_Some in Hrun as (v & Hv & Hrep).
    apply report_distribution_Ok in Hrep as (Hsm & _ & _ & H50 & _).
    simplify_eq/=. by rewrite (Hmed v Hv).
Qed.

Lemma median_equals_p50_witness :
  ∃ out sm, analyze_distribution ten_to_forty "X" = IO out (Ok (Some sm)).
Proof.
  apply (median_equals_p50 ten_to_forty "X" [10; 20; 30; 40]).
  - reflexivity.
  - discriminate.
  - unfold in_float_range. repeat constructor.
Defined.

(** ** Bucket counts *)

Section counts.
Implicit Types (l : list Z) (x : Z).



End counts.



(** ** Comparator *)

Section comparator.
Implicit Types (cal : list (gmap string json)) (p : gmap string json).

Lemma omap_cons {A B} (f : A → option B) (x : A) (l : list A) :
  omap f (x :: l)
  = match f x with Some y => y :: omap f l | None => omap f l end.
Proof. done. Qed.




End comparator.



(** ** Missing data and the report driver *)

Section driver.
Implicit Types (cal : list (gmap string json)) (data : document).

Lemma io_bind_ret (m : io ()) : (m;; mret ()) = m.
Proof.
  destruct m as [out [[]|e]]; cbn [mbind io_bind mret io_ret]; [|done].
  by rewrite app_nil_r.
Qed.

(** Without API scores there are no pairs. *)
Lemma paired_nil_of_api_scores cal : api_scores cal = [] → paired cal = [].
Proof.
  unfold api_scores, paired. induction cal as [|p cal IH]; [done|].
  rewrite !omap_cons. destruct (api_score p); [done|].
  intros H. rewrite (IH H). by destruct (p !! "heuristicScore").
Qed.

(** Without pairs the comparison block is skipped. *)
Lemma analyze_by_source_unpaired cal prefix :
  paired cal = [] →
  analyze_by_source cal prefix
  = (h_stats ← analyze_distribution (heuristic_scores cal)
                 (prefix +:+ " - Heuristic Scores");
     a_stats ← analyze_distribution (api_scores cal)
                 (prefix +:+ " - API Scores");
     mret (h_stats, a_stats)).
Proof.
  intros Hp. unfold analyze_by_source. rewrite Hp.
  destruct (analyze_distribution (heuristic_scores cal) _) as [o1 [h|e]];
    cbn [mbind io_bind]; [|done].
  destruct (analyze_distribution (api_scores cal) _) as [o2 [a|e]];
    cbn [mbind io_bind mret io_ret]; [|done].
  by rewrite !app_nil_r.
Qed.
End driver.

(** C8: on an empty score list the analyzer prints the "No data" notice and
    returns no summary; a partition without API scores gets that notice for
    them, has no pairs and no comparison block; a partition without any score
    gets the two notices and ends normally; without posts the session section
    prints nothing; with no calibration entry and no post, [main] prints its
    six header lines and ends normally. *)
Theorem missing_data_is_not_an_error :
  (∀ label, analyze_distribution [] label = IO [NoData label] (Ok None))
  ∧ (∀ cal prefix,
       api_scores cal = [] →
       paired cal = []
       ∧ analyze_by_source cal prefix
         = (h_stats ← analyze_distribution (heuristic_scores cal)
                        (prefix +:+ " - Heuristic Scores");
            print (NoData (prefix +:+ " - API Scores"));;
            mret (h_stats, None)))
  ∧ (∀ cal prefix,
       heuristic_scores cal = [] → api_scores cal = [] →
       analyze_by_source cal prefix
       = IO [NoData (prefix +:+ " - Heuristic Scores");
             NoData (prefix +:+ " - API Scores")] (Ok (None, None)))
  ∧ (∀ cal prefix,
       paired cal = [] →
       analyze_by_source cal prefix
       = (h_stats ← analyze_distribution (heuristic_scores cal)
                      (prefix +:+ " - Heuristic Scores");
          a_stats ← analyze_distribution (api_scores cal)
                      (prefix +:+ " - API Scores");
          mret (h_stats, a_stats)))
  ∧ (∀ label, session_report label [] = IO [] (Ok ()))
  ∧ (∀ data, all_posts data = [] →
       main_sessions data = IO [] (Ok ()) ∧ main data = main_calibration data)
  ∧ (∀ data, default [] (calibration data) = [] → all_posts data = [] →
       main data = IO (header_lines data 0 0) (Ok ())).
Proof.
  assert (Hsess : ∀ data, all_posts data = [] →
            main_sessions data = IO [] (Ok ()) ∧ main data = main_calibration data).
  { intros data Hp. unfold main, main_sessions. rewrite Hp. split; [done|].
    apply io_bind_ret. }
  split_and!; try done.
  - intros cal prefix Ha. pose proof (paired_nil_of_api_scores cal Ha) as Hp.
    split; [done|]. rewrite (analyze_by_source_unpaired _ _ Hp), Ha.
    destruct (analyze_distribution (heuristic_scores cal) _) as [o1 [h|e]];
      by cbn [mbind io_bind mret io_ret analyze_distribution print app].
  - intros cal prefix Hh Ha.
    rewrite (analyze_by_source_unpaired _ _ (paired_nil_of_api_scores cal Ha)).
    by rewrite Hh, Ha.
  - apply analyze_by_source_unpaired.
  - intros data Hc Hp. destruct (Hsess data Hp) as [_ ->].
    unfold main_calibration, header_lines. by rewrite Hc.
Qed.

Lemma missing_data_is_not_an_error_witness :
  main (Document None (Some [Session None; Session (Some [])]) (Some []))
  = IO (header_lines (Document None (Some [Session None; Session (Some [])]) (Some []))
          0 0) (Ok ()).
Proof.
  apply missing_data_is_not_an_error; reflexivity.
Defined.

(** C9, as stated, fails: for the export whose calibration is the single
    record [bob] no "No data" notice is printed at all: the Reddit partition
    is empty and [main] does not call the analyzers on it. *)
Lemma bob_export_prints_no_notice :
  ¬ ∃ label, NoData label ∈ printed (main bob_export).
Proof.
  intros [label H]. rewrite list_elem_of_In in H. vm_compute in H.
  repeat (destruct H as [H|H]; [discriminate H|]). done.
Qed.

(** C9, amended: for the export whose calibration is the single record
    [bob], the record is classified as a microblogging post, the Reddit
    partition is empty and its analyzers are not run: [main] prints the
    header, with one Twitter and no Reddit entry, and then exactly the
    analysis of the Twitter partition; it prints no "No data" notice and no
    line of a Reddit analysis, and ends normally. *)
Theorem bob_export_is_twitter_only :
  is_twitter_post bob = Ok true
  ∧ select is_twitter_post [bob] = Ok [bob]
  ∧ select is_reddit_post [bob] = Ok []
  ∧ main bob_export
    = IO (header_lines bob_export 1 0
          ++ printed (analyze_by_source [bob] "TWITTER")) (Ok ())
  ∧ outcome (analyze_by_source [bob] "TWITTER")
    = Ok (Some (Summary 1 30 30 30 30 30), Some (Summary 1 45 45 45 45 45))
  ∧ (∀ label, NoData label ∉ printed (main bob_export))
  ∧ (Text "REDDIT - Heuristic Scores" ∉ printed (main bob_export))
  ∧ (Text "REDDIT - API Scores" ∉ printed (main bob_export)).
Proof.
  split_and!; try by vm_compute.
  - intros label H. rewrite list_elem_of_In in H. vm_compute in H.
    repeat (destruct H as [H|H]; [discriminate H|]). done.
  - intros H. rewrite list_elem_of_In in H. vm_compute in H.
    repeat (destruct H as [H|H]; [discriminate H|]). done.
  - intros H. rewrite list_elem_of_In in H. vm_compute in H.
    repeat (destruct H as [H|H]; [discriminate H|]). done.
Qed.
